(** * Pay-and-verify wizard: step view and flow bootstrap

    A shallow embedding of
      - lms/static/js/verify_student/views/step_view.js   (module [StepView])
      - lms/static/js/verify_student/pay_and_verify.js    (module [PayAndVerify])

    JavaScript values are an inductive type with the language's truthiness;
    objects live in a store indexed by references, so that the step data
    handed to a view is shared with its creator and the context object built
    by [handleResponse] is a fresh one.  The asynchronous template fetch is a
    list of requests in flight; the event loop is a list of actions, each of
    which runs to completion before the next one starts. *)

From stdpp Require Import gmap strings list fin_maps.

Local Open Scope string_scope.
Local Open Scope list_scope.

(** ** JavaScript values *)

Module JS.

Inductive jsval : Type :=
| JUndefined
| JNull
| JBool (b : bool)
| JNum (n : Z)
| JStr (s : string).

#[global] Instance jsval_eq_dec : EqDecision jsval.
Proof. solve_decision. Defined.

(** ToBoolean: [undefined], [null], [false], [0] and the empty string are
    falsy, every other value is truthy. *)
Definition truthy (v : jsval) : bool :=
  match v with
  | JUndefined => false
  | JNull => false
  | JBool b => b
  | JNum n => negb (n =? 0)%Z
  | JStr s => negb (String.eqb s "")
  end.

(** [a || b] *)
Definition js_or (a b : jsval) : jsval := if truthy a then a else b.

(** An object is a finite map from property names to values. *)
Abbreviation object := (gmap string jsval).

Definition comma : Ascii.ascii := Ascii.ascii_of_nat 44.

(** [s.split(",")] on a string [s]. *)
Fixpoint split (s : string) : list string :=
  match s with
  | EmptyString => [""]
  | String c r =>
      if Ascii.eqb c comma then "" :: split r
      else match split r with
           | [] => [String c ""]
           | h :: t => String c h :: t
           end
  end.

(** [(v).split(",")] on an arbitrary value: only strings have the method,
    on the other values of [jsval] the call raises a TypeError. *)
Definition split_method (v : jsval) : option (list string) :=
  match v with
  | JStr s => Some (split s)
  | _ => None
  end.

(** [parts.join(",")], the inverse reading of [split]. *)
Fixpoint join (parts : list string) : string :=
  match parts with
  | [] => ""
  | [p] => p
  | p :: rest => String.append p (String comma (join rest))
  end.

Fixpoint has_comma (s : string) : bool :=
  match s with
  | EmptyString => false
  | String c r => Ascii.eqb c comma || has_comma r
  end.

(** The number of commas in a string. *)
Fixpoint commas (s : string) : nat :=
  match s with
  | EmptyString => 0
  | String c r => (if Ascii.eqb c comma then 1 else 0) + commas r
  end.

End JS.

(** ** The base step view (step_view.js) *)

Module StepView.
Import JS.

(** Objects are held by reference: a store maps references to objects. *)
Abbreviation ref := nat.
Abbreviation store := (gmap nat (gmap string jsval)).

(** What the view does to the outside world, in the order it does it. *)
Inductive event : Type :=
| EvAjax (url : jsval)                  (* [$.ajax({url: .., type: 'GET', ..})] *)
| EvHtml (arg : jsval)                  (* [$(this.el).html(arg)] *)
| EvPostRender (content : string)       (* [this.postRender()], with the content
                                           of the root element at that moment *)
| EvSignal (cb : nat) (name : string) (args : list jsval).
                                        (* listener [cb] called for signal [name] *)

#[global] Instance event_eq_dec : EqDecision event.
Proof. solve_decision. Defined.

(** The argument of the constructor.  [stepData] is an object reference or
    absent; the other three are arbitrary values. *)
Record options : Type := Options {
  o_templateUrl : jsval;
  o_stepData : option ref;
  o_nextStepNum : jsval;
  o_nextStepTitle : jsval
}.

(** The fields of the view object itself. *)
Record view : Type := View {
  templateUrl : jsval;
  stepData : ref;
  nextStepNum : jsval;
  nextStepTitle : jsval;
  renderedHtml : jsval
}.

(** The view together with what surrounds it: the content of its root
    element [el], the listeners registered on it, the object store, the
    template requests in flight and the trace of events so far. *)
Record world : Type := World {
  this : view;
  el : string;
  listeners : list (string * nat);
  objects : store;
  inflight : list jsval;
  log : list event
}.

Definition set_renderedHtml (v : view) (h : jsval) : view :=
  View (templateUrl v) (stepData v) (nextStepNum v) (nextStepTitle v) h.

Definition with_this (w : world) (v : view) : world :=
  World v (el w) (listeners w) (objects w) (inflight w) (log w).
Definition with_el (w : world) (c : string) : world :=
  World (this w) c (listeners w) (objects w) (inflight w) (log w).
Definition with_objects (w : world) (σ : store) : world :=
  World (this w) (el w) (listeners w) σ (inflight w) (log w).
Definition with_inflight (w : world) (rs : list jsval) : world :=
  World (this w) (el w) (listeners w) (objects w) rs (log w).
Definition emit (w : world) (es : list event) : world :=
  World (this w) (el w) (listeners w) (objects w) (inflight w) (log w ++ es).

(** *** Library calls *)

(** Modelled from the spec: jQuery's [.html(value)] is not among the sources;
    the spec describes the call as writing the cached HTML into the view's
    root element, which is what the method does with a string.  Called with
    [undefined], as the view does while nothing is cached, the method is
    its own reading form: nothing is written and the content [old] stays.
    The view passes nothing but [undefined] or a string; the remaining
    values are taken like [undefined]. *)
Definition html_content (arg : jsval) (old : string) : string :=
  match arg with
  | JStr s => s
  | _ => old
  end.

Definition jq_html (w : world) (arg : jsval) : world :=
  emit (with_el w (html_content arg (el w))) [EvHtml arg].

(** Modelled from the spec: jQuery's [$.ajax] is not among the sources; the
    spec describes a single asynchronous GET of the resource, on which the
    caller does not block.  The request joins the requests in flight; the
    only handler the view registers is [success]. *)
Definition ajax_get (w : world) (url : jsval) : world :=
  emit (with_inflight w (inflight w ++ [url])) [EvAjax url].

(** Modelled from the spec: Underscore's [_.extend(dst, src)] is not among
    the sources; the spec describes it as overlaying all of [src] on top of
    [dst], the keys of [src] winning on conflict.  Only [dst] is written. *)
Definition extend (σ : store) (dst src : ref) : store :=
  match σ !! dst, σ !! src with
  | Some d, Some s => <[dst := s ∪ d]> σ
  | _, _ => σ
  end.

(** Modelled from the spec: Backbone's [trigger(name)] is not among the
    sources; the spec describes it as a broadcast of one named signal, with
    no payload, to the listeners registered on the view.  Each registration
    for [name] is called once, in registration order. *)
Definition subscribers (name : string) (ls : list (string * nat)) : list nat :=
  map snd (filter (λ r, r.1 = name) ls).

Definition trigger (w : world) (name : string) : world :=
  emit w (map (λ cb, EvSignal cb name []) (subscribers name (listeners w))).


(** *** The methods of the view *)

Section Methods.

(** Underscore's [_.template(text, context)]: the template engine is a
    parameter of the development. *)
Variable template : string → gmap string jsval → string.

(** [initialize]: [σ] is the store and [content] the content of the root
    element when the view is constructed.  ([_.mixin] only extends the
    Underscore namespace and is left out.) *)
Definition initialize (σ : store) (content : string) (obj : options) : world :=
  let '(sd, σ') :=
    match o_stepData obj with
    | Some l => (l, σ)
    | None => let l := fresh (dom σ) in (l, <[l := ∅]> σ)
    end in
  World
    (View (js_or (o_templateUrl obj) (JStr ""))
          sd
          (js_or (o_nextStepNum obj) (JStr ""))
          (js_or (o_nextStepTitle obj) (JStr ""))
          JUndefined)
    content [] σ' [] [].

(** [postRender]: the base class does nothing; the call is recorded. *)
Definition postRender (w : world) : world :=
  emit w [EvPostRender (el w)].

Definition render (w : world) : world :=
  if negb (truthy (renderedHtml (this w))) && truthy (templateUrl (this w))
  then ajax_get w (templateUrl (this w))
  else postRender (jq_html w (renderedHtml (this w))).

(** The context object built by [handleResponse]: a fresh object holding
    the two next-step fields. *)
Definition new_context (w : world) : ref * store :=
  let c := fresh (dom (objects w)) in
  (c, <[c := {[ "nextStepNum" := nextStepNum (this w);
                "nextStepTitle" := nextStepTitle (this w) ]}]> (objects w)).

Definition handleResponse (w : world) (data : string) : world :=
  let '(context, σ1) := new_context w in
  let σ2 := extend σ1 context (stepData (this w)) in
  let html := JStr (template data (default ∅ (σ2 !! context))) in
  let w1 := with_this (with_objects w σ2) (set_renderedHtml (this w) html) in
  postRender (jq_html w1 (renderedHtml (this w1))).

Definition nextStep (w : world) : world :=
  trigger w "next-step".

(** *** The event loop *)

(** What can happen to a view: a call of [render] or [nextStep], the
    arrival of the response to the [i]-th request in flight, or the failure
    of that request.  A failed request has no handler. *)
Inductive action : Type :=
| Render
| NextStep
| Respond (i : nat) (data : string)
| FetchFail (i : nat).

Definition step (w : world) (a : action) : world :=
  match a with
  | Render => render w
  | NextStep => nextStep w
  | Respond i data =>
      match inflight w !! i with
      | Some _ => handleResponse (with_inflight w (delete i (inflight w))) data
      | None => w
      end
  | FetchFail i => with_inflight w (delete i (inflight w))
  end.

Definition run (w : world) (acts : list action) : world :=
  foldl step w acts.

End Methods.

(** *** Observations on a trace *)

Definition is_ajax (e : event) : bool :=
  match e with EvAjax _ => true | _ => false end.
Definition is_postRender (e : event) : bool :=
  match e with EvPostRender _ => true | _ => false end.

Definition fetches (l : list event) : nat := length (filter is_ajax l).
Definition hooks (l : list event) : nat := length (filter is_postRender l).


(** A template without markup renders to itself: the engine restricted to
    such texts, used to run the model on concrete responses. *)
Definition literal_template (text : string) (_ : gmap string jsval) : string := text.

(** *** Properties of worlds and traces *)

(** [w'] has the configuration of [w]: the same four configuration fields,
    and the same object behind the step-data reference. *)
Definition same_config (w w' : world) : Prop :=
  templateUrl (this w') = templateUrl (this w)
  ∧ stepData (this w') = stepData (this w)
  ∧ nextStepNum (this w') = nextStepNum (this w)
  ∧ nextStepTitle (this w') = nextStepTitle (this w)
  ∧ objects w' !! stepData (this w) = objects w !! stepData (this w).



(** A view built on an empty store with a template locator and nothing
    else. *)
Definition sample_view : world :=
  initialize ∅ "" (Options (JStr "/static/tpl/intro_step.underscore") None JUndefined JUndefined).

(** Every call of [.html] on the root element is directly followed by a
    call of the hook, which sees the string written when a string was. *)
Definition write_then_hook (l : list event) : Prop :=
  ∀ j v, l !! j = Some (EvHtml v) →
    ∃ c, l !! S j = Some (EvPostRender c) ∧ ∀ s, v = JStr s → c = s.

(** An event is not a fetch, or it is a fetch of [url]. *)
Definition fetch_of (url : jsval) (e : event) : Prop :=
  match e with
  | EvAjax u => u = url
  | _ => True
  end.

(** The number of [render] calls in a sequence of actions. *)
Definition is_render (a : action) : bool :=
  match a with Render => true | _ => false end.
Definition renders (acts : list action) : nat := length (filter is_render acts).

End StepView.

(** ** The flow bootstrap (pay_and_verify.js) *)

Module PayAndVerify.
Import JS.

(** The container element, as far as the bootstrap looks at it: its
    attributes, by attribute name. *)
Abbreviation container := (gmap string string).

(** *** The conversion of attribute texts by [el.data] *)

Definition code (c : Ascii.ascii) : N := Ascii.N_of_ascii c.

Definition is_digit (c : Ascii.ascii) : bool :=
  (48 <=? code c)%N && (code c <=? 57)%N.

(** The characters that can stand in the text of a number or around it:
    white space and everything outside printable ASCII, digits, the
    letters of hexadecimal, octal, binary and exponent notation, the point
    and the signs. *)
Definition numeral_char (c : Ascii.ascii) : bool :=
  (code c <? 33)%N || (126 <? code c)%N || is_digit c
  || existsb (Ascii.eqb c) (String.list_ascii_of_string "abcdefABCDEFxXoObB.+-").

Fixpoint has_text_char (s : string) : bool :=
  match s with
  | EmptyString => false
  | String c r => negb (numeral_char c) || has_text_char r
  end.

(** An opening brace or bracket, without which a text is not JSON. *)
Fixpoint has_brace (s : string) : bool :=
  match s with
  | EmptyString => false
  | String c r => (code c =? 123)%N || (code c =? 91)%N || has_brace r
  end.

Definition is_number_name (s : string) : bool :=
  String.eqb s "Infinity" || String.eqb s "-Infinity" || String.eqb s "NaN".

Fixpoint digits_value (s : string) (acc : Z) : option Z :=
  match s with
  | EmptyString => Some acc
  | String c r =>
      if is_digit c
      then digits_value r (10 * acc + (Z.of_N (code c) - 48))%Z
      else None
  end.

(** ["0"], or digits that do not start with a zero. *)
Definition natural_numeral (s : string) : option Z :=
  match s with
  | EmptyString => None
  | String c r =>
      if (code c =? 48)%N
      then (if String.eqb r "" then Some 0%Z else None)
      else digits_value s 0
  end.

(** The integers of magnitude up to 2^53 in the one form in which a number
    prints: no sign but the minus of a negative number, no leading zero. *)
Definition integer_numeral (s : string) : option Z :=
  n ← match s with
      | EmptyString => None
      | String c r =>
          if (code c =? 45)%N
          then m ← natural_numeral r; if (m =? 0)%Z then None else Some (- m)%Z
          else natural_numeral s
      end;
  if (Z.abs n <=? 2 ^ 53)%Z then Some n else None.

(** Modelled from the spec: jQuery's [el.data(name)] is not among the
    sources; the spec has it read the container's attribute for [name] and
    has the configuration hold strings and numbers.  [jq_convert] is the
    conversion jQuery applies to the text of the attribute, where every
    version of the library gives the same value: the texts [true], [false]
    and [null] become the values they name, an integer numeral becomes
    that number, and a text that holds a character no number is written
    with, and no brace or bracket, stays the string it is, as does the
    empty text.  For the other texts (numbers in another form, JSON) the
    result is [None]: the model leaves their conversion open. *)
Definition jq_convert (s : string) : option jsval :=
  if String.eqb s "" then Some (JStr "")
  else if String.eqb s "true" then Some (JBool true)
  else if String.eqb s "false" then Some (JBool false)
  else if String.eqb s "null" then Some JNull
  else match integer_numeral s with
       | Some n => Some (JNum n)
       | None =>
           if has_text_char s && negb (has_brace s) && negb (is_number_name s)
           then Some (JStr s)
           else None
       end.

(** The conversion of a text taken as it is. *)
Definition plain_text (s : string) : jsval := JStr s.

Record IntroStep : Type := {
  introTitle : jsval;
  introMsg : jsval;
  requirements : jsval
}.

Record MakePaymentStep : Type := {
  courseKey : jsval;
  minPrice : jsval;
  suggestedPrices : list string;
  currency : jsval;
  purchaseEndpoint : jsval
}.

Record PaymentConfirmationStep : Type := {
  courseName : jsval;
  courseStartDate : jsval;
  coursewareUrl : jsval
}.

Record ReviewPhotosStep : Type := {
  fullName : jsval
}.

(** [stepInfo]: one object per step identifier. *)
Record StepInfo : Type := {
  intro_step : IntroStep;
  make_payment_step : MakePaymentStep;
  payment_confirmation_step : PaymentConfirmationStep;
  review_photos_step : ReviewPhotosStep
}.

(** The argument of [new edx.verify_student.PayAndVerifyView(..)]. *)
Record ViewOptions : Type := {
  displaySteps : jsval;
  currentStep : jsval;
  stepInfo : StepInfo
}.

(** The object literal of the bootstrap over the reader [get], which stands
    for [el.data].  Evaluating it fails only where [.split] is called on a
    value that is not a string. *)
Definition view_options (get : string → jsval) : option ViewOptions :=
  prices ← split_method (js_or (get "course-mode-suggested-prices") (JStr ""));
  Some {|
    displaySteps := get "display-steps";
    currentStep := get "current-step";
    stepInfo := {|
      intro_step := {|
        introTitle := get "intro-title";
        introMsg := get "intro-msg";
        requirements := get "requirements"
      |};
      make_payment_step := {|
        courseKey := get "course-key";
        minPrice := get "course-mode-min-price";
        suggestedPrices := prices;
        currency := get "course-mode-currency";
        purchaseEndpoint := get "purchase-endpoint"
      |};
      payment_confirmation_step := {|
        courseName := get "course-name";
        courseStartDate := get "course-start-date";
        coursewareUrl := get "courseware-url"
      |};
      review_photos_step := {|
        fullName := get "full-name"
      |}
    |}
  |}.

(** The keys whose value is forwarded as read, each with the attribute it
    is read from. *)
Definition forwarded : list ((ViewOptions → jsval) * string) :=
  [ (displaySteps, "data-display-steps");
    (currentStep, "data-current-step");
    (λ c, introTitle (intro_step (stepInfo c)), "data-intro-title");
    (λ c, introMsg (intro_step (stepInfo c)), "data-intro-msg");
    (λ c, requirements (intro_step (stepInfo c)), "data-requirements");
    (λ c, courseKey (make_payment_step (stepInfo c)), "data-course-key");
    (λ c, minPrice (make_payment_step (stepInfo c)), "data-course-mode-min-price");
    (λ c, currency (make_payment_step (stepInfo c)), "data-course-mode-currency");
    (λ c, purchaseEndpoint (make_payment_step (stepInfo c)), "data-purchase-endpoint");
    (λ c, courseName (payment_confirmation_step (stepInfo c)), "data-course-name");
    (λ c, courseStartDate (payment_confirmation_step (stepInfo c)), "data-course-start-date");
    (λ c, coursewareUrl (payment_confirmation_step (stepInfo c)), "data-courseware-url");
    (λ c, fullName (review_photos_step (stepInfo c)), "data-full-name") ].

Definition prices_attribute : string := "data-course-mode-suggested-prices".

(** The attributes the bootstrap reads. *)
Definition attributes_read : list string :=
  prices_attribute :: map snd forwarded.

Section Reader.

(** What jQuery makes of the attribute texts whose conversion [jq_convert]
    leaves open: a parameter of the development. *)
Variable other : string → jsval.

(** The value [el.data] gives for an attribute: [undefined] when the
    attribute is absent, the conversion of its text when it is present. *)
Definition attribute (el : container) (attr : string) : jsval :=
  match el !! attr with
  | Some s => default (other s) (jq_convert s)
  | None => JUndefined
  end.

(** [el.data(name)] reads the attribute [data-name]. *)
Definition data (el : container) (name : string) : jsval :=
  attribute el (String.append "data-" name).

(** The options the root view is constructed with for container [el];
    [None] when evaluating them raises the TypeError. *)
Definition bootstrap (el : container) : option ViewOptions :=
  view_options (data el).

End Reader.

End PayAndVerify.

(** * Verification *)

(** ** Splitting and joining *)

Module JSFacts.
Import JS.

Lemma split_nonempty s : split s ≠ [].
Proof.
  destruct s as [|c r]; simpl; [done|].
  destruct (Ascii.eqb c comma); [done|].
  destruct (split r); done.
Qed.




End JSFacts.

(** ** The step view *)

Module StepViewFacts.
Import JS StepView.

(** *** Basic facts about the methods *)

Section Facts.

Variable template : string → gmap string jsval → string.

Lemma fetches_app l1 l2 : fetches (l1 ++ l2) = fetches l1 + fetches l2.
Proof. unfold fetches. by rewrite filter_app, length_app. Qed.

Lemma hooks_app l1 l2 : hooks (l1 ++ l2) = hooks l1 + hooks l2.
Proof. unfold hooks. by rewrite filter_app, length_app. Qed.


(** The two branches of [render]. *)
Lemma render_fetch w :
  truthy (renderedHtml (this w)) = false →
  truthy (templateUrl (this w)) = true →
  render w = ajax_get w (templateUrl (this w)).
Proof. intros H1 H2. unfold render. by rewrite H1, H2. Qed.

Lemma render_cached w :
  truthy (renderedHtml (this w)) = true ∨ truthy (templateUrl (this w)) = false →
  render w = postRender (jq_html w (renderedHtml (this w))).
Proof. intros [H|H]; unfold render; rewrite H; [done|]. by rewrite andb_false_r. Qed.

Lemma handleResponse_this w data :
  ∃ h, this (handleResponse template w data) = set_renderedHtml (this w) (JStr h)
       ∧ el (handleResponse template w data) = h
       ∧ log (handleResponse template w data)
         = log w ++ [EvHtml (JStr h); EvPostRender h].
Proof.
  eexists. unfold handleResponse, new_context, postRender, jq_html, emit.
  simpl. rewrite <- app_assoc. simpl. done.
Qed.

Lemma handleResponse_frame w data :
  listeners (handleResponse template w data) = listeners w
  ∧ inflight (handleResponse template w data) = inflight w.
Proof. done. Qed.

Lemma handleResponse_counts w data :
  fetches (log (handleResponse template w data)) = fetches (log w)
  ∧ hooks (log (handleResponse template w data)) = hooks (log w) + 1
  ∧ inflight (handleResponse template w data) = inflight w.
Proof.
  destruct (handleResponse_this w data) as (h & _ & _ & Hl).
  rewrite Hl, fetches_app, hooks_app. repeat split; done.
Qed.

Lemma step_respond w i data u :
  inflight w !! i = Some u →
  step template w (Respond i data)
  = handleResponse template (with_inflight w (delete i (inflight w))) data.
Proof. intros H. simpl. by rewrite H. Qed.

Lemma run_app w a1 a2 :
  run template w (a1 ++ a2) = run template (run template w a1) a2.
Proof. unfold run. apply foldl_app. Qed.

Lemma run_snoc w acts a :
  run template w (acts ++ [a]) = step template (run template w acts) a.
Proof. by rewrite run_app. Qed.

Lemma initialize_fields σ content obj :
  let w := initialize σ content obj in
  templateUrl (this w) = js_or (o_templateUrl obj) (JStr "")
  ∧ nextStepNum (this w) = js_or (o_nextStepNum obj) (JStr "")
  ∧ nextStepTitle (this w) = js_or (o_nextStepTitle obj) (JStr "")
  ∧ renderedHtml (this w) = JUndefined
  ∧ el w = content
  ∧ listeners w = []
  ∧ inflight w = []
  ∧ log w = [].
Proof. unfold initialize. by destruct (o_stepData obj). Qed.

(** Once a non-empty rendering is cached, [render] only replays it. *)
Lemma render_replay w h :
  renderedHtml (this w) = JStr h → h ≠ "" →
  render w = World (this w) h (listeners w) (objects w) (inflight w)
                   (log w ++ [EvHtml (JStr h); EvPostRender h]).
Proof.
  intros Hr Hne. rewrite render_cached.
  - unfold postRender, jq_html, emit. simpl. rewrite Hr. simpl.
    by rewrite <- app_assoc.
  - left. rewrite Hr. simpl. destruct (String.eqb_spec h ""); done.
Qed.

Lemma renders_replay w h n :
  renderedHtml (this w) = JStr h → h ≠ "" →
  let w' := run template w (replicate n Render) in
  this w' = this w ∧ inflight w' = inflight w ∧ objects w' = objects w
  ∧ listeners w' = listeners w
  ∧ (0 < n → el w' = h)
  ∧ log w' = log w ++ mjoin (replicate n [EvHtml (JStr h); EvPostRender h]).
Proof.
  intros Hr Hne. revert w Hr.
  induction n as [|n IH]; intros w Hr; simpl.
  - by rewrite app_nil_r; repeat split; try lia.
  - rewrite (render_replay w h Hr Hne).
    set (w1 := World _ _ _ _ _ _).
    destruct (IH w1 Hr) as (H1 & H2 & H3 & H4 & H5 & H6).
    fold (run template w1 (replicate n Render)).
    rewrite H1, H2, H3, H4, H6. simpl.
    repeat split; try done.
    + intros _. destruct n; [done|]. apply H5. lia.
    + by rewrite <- app_assoc.
Qed.

End Facts.

(** *** The store: the context object and the step data *)

Section StoreFacts.

Variable template : string → gmap string jsval → string.

Lemma fresh_ref_unallocated (σ : store) : σ !! fresh (dom σ) = None.
Proof. apply not_elem_of_dom. apply is_fresh. Qed.

Lemma fresh_ref_ne (σ : store) (l : nat) : is_Some (σ !! l) → fresh (dom σ) ≠ l.
Proof.
  intros [o Ho] Heq. rewrite <- Heq, fresh_ref_unallocated in Ho. done.
Qed.

(** What [handleResponse] leaves in the store and in the cache when the
    step data is the object [sd]: the context object sits at a fresh
    reference and holds [sd] laid over the two next-step fields. *)
Lemma handleResponse_store w data sd :
  objects w !! stepData (this w) = Some sd →
  let c := fresh (dom (objects w)) in
  let base : gmap string jsval :=
    {[ "nextStepNum" := nextStepNum (this w);
       "nextStepTitle" := nextStepTitle (this w) ]} in
  objects (handleResponse template w data) = <[c := sd ∪ base]> (<[c := base]> (objects w))
  ∧ renderedHtml (this (handleResponse template w data))
    = JStr (template data (sd ∪ base)).
Proof.
  intros Hsd c base.
  assert (Hne : c ≠ stepData (this w)) by (apply fresh_ref_ne; eauto).
  unfold handleResponse, new_context. fold c. fold base.
  unfold extend.
  rewrite lookup_insert_eq, lookup_insert_ne, Hsd by done.
  cbn. rewrite lookup_insert_eq. done.
Qed.

Lemma handleResponse_keeps_step_data w data :
  is_Some (objects w !! stepData (this w)) →
  objects (handleResponse template w data) !! stepData (this w)
  = objects w !! stepData (this w).
Proof.
  intros [sd Hsd].
  destruct (handleResponse_store w data sd Hsd) as [-> _].
  assert (Hne : fresh (dom (objects w)) ≠ stepData (this w))
    by (apply fresh_ref_ne; eauto).
  by rewrite !lookup_insert_ne.
Qed.

Lemma same_config_refl w : same_config w w.
Proof. by repeat split. Qed.

Lemma same_config_trans w1 w2 w3 :
  same_config w1 w2 → same_config w2 w3 → same_config w1 w3.
Proof.
  intros (A1 & A2 & A3 & A4 & A5) (B1 & B2 & B3 & B4 & B5).
  rewrite A2 in B5.
  repeat split; congruence.
Qed.

Lemma render_same_config w : same_config w (render w).
Proof.
  unfold render.
  destruct (negb _ && _); by repeat split.
Qed.

Lemma handleResponse_same_config w data :
  is_Some (objects w !! stepData (this w)) →
  same_config w (handleResponse template w data).
Proof.
  intros Hsd.
  destruct (handleResponse_this template w data) as (h & Hthis & _ & _).
  pose proof (handleResponse_keeps_step_data w data Hsd) as Hkeep.
  unfold same_config. rewrite Hthis, Hkeep. done.
Qed.

Lemma step_same_config w a :
  is_Some (objects w !! stepData (this w)) →
  same_config w (step template w a).
Proof.
  intros Hsd. destruct a as [| |i data|i]; simpl.
  - apply render_same_config.
  - by repeat split.
  - destruct (inflight w !! i); [|apply same_config_refl].
    by apply (handleResponse_same_config (with_inflight w (delete i (inflight w))) data).
  - by repeat split.
Qed.

Lemma run_same_config acts w :
  is_Some (objects w !! stepData (this w)) →
  same_config w (run template w acts).
Proof.
  revert w. induction acts as [|a acts IH]; intros w Hsd.
  - apply same_config_refl.
  - pose proof (step_same_config w a Hsd) as Hs.
    apply (same_config_trans _ _ _ Hs).
    apply IH.
    destruct Hs as (_ & -> & _ & _ & ->). done.
Qed.

Lemma initialize_step_data σ content obj :
  (∀ l, o_stepData obj = Some l → is_Some (σ !! l)) →
  let w := initialize σ content obj in
  objects w !! stepData (this w)
  = match o_stepData obj with Some l => σ !! l | None => Some ∅ end
  ∧ is_Some (objects w !! stepData (this w)).
Proof.
  intros Hwf. unfold initialize.
  destruct (o_stepData obj) as [l|] eqn:Ho; simpl.
  - split; [done|]. by apply Hwf.
  - rewrite lookup_insert_eq. eauto.
Qed.

End StoreFacts.

(** *** The order of events in a trace *)







Lemma hooks_signals name cbs :
  hooks (map (λ cb, EvSignal cb name []) cbs) = 0.
Proof. induction cbs; done. Qed.


(** *** Rendering and caching *)

(** C1, on the code: a response whose rendering is the empty string leaves a
    falsy cache, so the next [render] fetches the template a second time and
    does not call [postRender]. *)
Lemma render_refetches_after_empty_rendering :
  let w1 := run literal_template sample_view [Render; Respond 0 ""] in
  let w2 := render w1 in
  renderedHtml (this w1) = JStr ""
  ∧ fetches (log w1) = 1 ∧ hooks (log w1) = 1
  ∧ fetches (log w2) = 2 ∧ hooks (log w2) = 1
  ∧ inflight w2 = [JStr "/static/tpl/intro_step.underscore"].
Proof. vm_compute. repeat split. Qed.

(** C1, on the code, with overlapping fetches: the response to a second
    fetch is rendered again and replaces a non-empty cache; when that
    rendering is empty, the next [render] fetches a third time. *)
Lemma render_refetches_after_later_empty_response :
  let w := run literal_template sample_view
             [Render; Render; Respond 0 "<h1>Intro</h1>"; Respond 0 ""; Render] in
  fetches (log w) = 3 ∧ hooks (log w) = 2 ∧ renderedHtml (this w) = JStr "".
Proof. vm_compute. repeat split. Qed.

Lemma signals_are_not_fetches name cbs :
  fetches (map (λ cb, EvSignal cb name []) cbs) = 0.
Proof. induction cbs; done. Qed.

(** With a non-empty rendering cached and shown and nothing in flight, no
    action changes the cache, shows anything else or issues a fetch. *)
Lemma step_cached
    (template : string → gmap string jsval → string) w a h :
  renderedHtml (this w) = JStr h → h ≠ "" → inflight w = [] → el w = h →
  this (step template w a) = this w
  ∧ inflight (step template w a) = []
  ∧ el (step template w a) = h
  ∧ fetches (log (step template w a)) = fetches (log w)
  ∧ hooks (log (step template w a))
    = hooks (log w) + (if is_render a then 1 else 0).
Proof.
  intros Hr Hne Hfl Hel.
  destruct a as [| |i data|i]; cbn [step is_render].
  - rewrite (render_replay w h Hr Hne). cbn [this inflight el log].
    rewrite fetches_app, hooks_app. repeat split; done.
  - unfold nextStep, trigger, emit. cbn [this inflight el log].
    rewrite fetches_app, hooks_app, signals_are_not_fetches, hooks_signals.
    repeat split; try done; lia.
  - rewrite Hfl. cbn. repeat split; try done; lia.
  - cbn [this inflight el log with_inflight]. rewrite Hfl. cbn.
    repeat split; try done; lia.
Qed.

Lemma run_cached
    (template : string → gmap string jsval → string) acts w h :
  renderedHtml (this w) = JStr h → h ≠ "" → inflight w = [] → el w = h →
  this (run template w acts) = this w
  ∧ inflight (run template w acts) = []
  ∧ el (run template w acts) = h
  ∧ fetches (log (run template w acts)) = fetches (log w)
  ∧ hooks (log (run template w acts)) = hooks (log w) + renders acts.
Proof.
  revert w. induction acts as [|a acts IH]; intros w Hr Hne Hfl Hel.
  - change (run template w []) with w.
    change (renders []) with 0.
    repeat split; try done; try lia.
  - destruct (step_cached template w a h Hr Hne Hfl Hel)
      as (Hthis & Hfl' & Hel' & Hf & Hh).
    change (run template w (a :: acts))
      with (run template (step template w a) acts).
    destruct (IH (step template w a)) as (H1 & H2 & H3 & H4 & H5);
      [by rewrite Hthis | done | done | done |].
    assert (Hren : renders (a :: acts)
                   = (if is_render a then 1 else 0) + renders acts)
      by (by destruct a).
    rewrite H1, H2, H3, H4, H5, Hthis, Hf, Hh, Hren.
    repeat split; try done. lia.
Qed.

(** C1 (amended): once the response handler has cached a non-empty
    rendering and no other request is in flight, whatever happens to the
    view afterwards ([render] and [nextStep] calls, late responses,
    failures, in any order) the cache stays as it is, the root element
    holds that HTML, no request is put in flight and no fetch is issued,
    and each call of [render] runs [postRender] once. *)
Theorem render_reuses_cached_html
    (template : string → gmap string jsval → string)
    (w : world) (data : string) (acts : list action) :
  let w1 := handleResponse template w data in
  let w2 := run template w1 acts in
  truthy (renderedHtml (this w1)) = true →
  inflight w1 = [] →
  renderedHtml (this w2) = renderedHtml (this w1)
  ∧ JStr (el w2) = renderedHtml (this w1)
  ∧ inflight w2 = []
  ∧ fetches (log w2) = fetches (log w1)
  ∧ hooks (log w2) = hooks (log w1) + renders acts.
Proof.
  intros w1 w2 Ht Hfl.
  destruct (handleResponse_this template w data) as (h & Hthis & Hel & _).
  fold w1 in Hthis, Hel.
  assert (Hr : renderedHtml (this w1) = JStr h) by (by rewrite Hthis).
  assert (Hne : h ≠ "").
  { intros ->. by rewrite Hr in Ht. }
  destruct (run_cached template acts w1 h Hr Hne Hfl Hel)
    as (H1 & H2 & H3 & H4 & H5).
  fold w2 in H1, H2, H3, H4, H5.
  by rewrite H1, H2, H3, H4, H5, Hr.
Qed.

Lemma render_reuses_cached_html_witness :
  let w1 := handleResponse literal_template sample_view "<h1>Intro</h1>" in
  let w2 := run literal_template w1
              [Render; NextStep; Respond 0 ""; Render; FetchFail 0; Render] in
  truthy (renderedHtml (this w1)) = true
  ∧ inflight w1 = []
  ∧ renderedHtml (this w2) = JStr "<h1>Intro</h1>"
  ∧ fetches (log w2) = fetches (log w1)
  ∧ hooks (log w2) = hooks (log w1) + 3.
Proof.
  split; [reflexivity|]. split; [reflexivity|].
  pose proof (render_reuses_cached_html literal_template sample_view
                "<h1>Intro</h1>"
                [Render; NextStep; Respond 0 ""; Render; FetchFail 0; Render]
                eq_refl eq_refl) as (Hc & _ & _ & Hf & Hh).
  split; [exact Hc|]. split; [exact Hf | exact Hh].
Defined.

(** C3, on the code: a view without a template locator whose root element
    already holds content keeps that content when [render] is called: the
    call of [.html] with the absent cache writes nothing. *)
Lemma render_without_template_keeps_content :
  let w := initialize ∅ "<p>stale</p>" (Options JUndefined None JUndefined JUndefined) in
  templateUrl (this w) = JStr ""
  ∧ renderedHtml (this w) = JUndefined
  ∧ el (render w) = "<p>stale</p>"
  ∧ el (render w) ≠ "".
Proof. vm_compute. repeat split. discriminate. Qed.

(** C3 (amended): with an empty template locator and no cached output, one
    call of [render] issues no fetch and puts no request in flight, calls
    [.html] with the absent cache, which leaves the root element's content
    as it was (empty when it was empty), and then calls [postRender]
    exactly once, all within that call. *)
Theorem render_without_template (w : world) :
  templateUrl (this w) = JStr "" →
  renderedHtml (this w) = JUndefined →
  el (render w) = el w
  ∧ (el w = "" → el (render w) = "")
  ∧ log (render w) = log w ++ [EvHtml JUndefined; EvPostRender (el w)]
  ∧ hooks (log (render w)) = hooks (log w) + 1
  ∧ fetches (log (render w)) = fetches (log w)
  ∧ inflight (render w) = inflight w
  ∧ this (render w) = this w.
Proof.
  intros Hu Hr.
  rewrite render_cached by (right; by rewrite Hu).
  unfold postRender, jq_html, emit. simpl. rewrite Hr. simpl.
  rewrite <- app_assoc. simpl.
  rewrite hooks_app, fetches_app.
  repeat split; try done.
Qed.

Lemma render_without_template_witness :
  let w := initialize ∅ "" (Options JUndefined None JUndefined JUndefined) in
  el (render w) = "" ∧ log (render w) = [EvHtml JUndefined; EvPostRender ""]
  ∧ inflight (render w) = [].
Proof.
  intros w.
  pose proof (render_without_template w eq_refl eq_refl)
    as (_ & H2 & H3 & _ & _ & H6 & _).
  split; [by apply H2|]. split; [exact H3 | exact H6].
Defined.

(** C9: when [render] is called a second time before the response to the
    first fetch has been handled, a second fetch of the same locator is
    issued, both requests are in flight at once, and once both responses
    have arrived [postRender] has run twice. *)
Theorem overlapping_renders_fetch_twice
    (template : string → gmap string jsval → string)
    (σ : store) (content : string) (obj : options) (d1 d2 : string) :
  truthy (o_templateUrl obj) = true →
  let w0 := initialize σ content obj in
  let w2 := run template w0 [Render; Render] in
  let w4 := run template w0 [Render; Render; Respond 0 d1; Respond 0 d2] in
  inflight w2 = [o_templateUrl obj; o_templateUrl obj]
  ∧ log w2 = [EvAjax (o_templateUrl obj); EvAjax (o_templateUrl obj)]
  ∧ fetches (log w4) = 2
  ∧ hooks (log w4) = 2.
Proof.
  intros Ht w0 w2 w4.
  destruct (initialize_fields σ content obj)
    as (Hu & _ & _ & Hr & _ & _ & Hfl & Hlg).
  fold w0 in Hu, Hr, Hfl, Hlg.
  assert (Hurl : templateUrl (this w0) = o_templateUrl obj).
  { rewrite Hu. unfold js_or. by rewrite Ht. }
  assert (Hw2 : w2 = World (this w0) (el w0) (listeners w0) (objects w0)
                      [o_templateUrl obj; o_templateUrl obj]
                      [EvAjax (o_templateUrl obj); EvAjax (o_templateUrl obj)]).
  { subst w2. unfold run. simpl.
    rewrite (render_fetch w0) by (by rewrite ?Hr, ?Hurl).
    rewrite render_fetch by (simpl; by rewrite ?Hr, ?Hurl).
    unfold ajax_get, emit. simpl. by rewrite Hfl, Hlg, Hurl. }
  split; [by rewrite Hw2|]. split; [by rewrite Hw2|].
  change w4 with (step template (step template w2 (Respond 0 d1)) (Respond 0 d2)).
  clearbody w2. subst w2.
  set (w2 := World _ _ _ _ _ _).
  rewrite (step_respond template w2 0 d1 (o_templateUrl obj)) by done.
  set (w3 := handleResponse template _ d1).
  destruct (handleResponse_counts template
              (with_inflight w2 (delete 0 (inflight w2))) d1) as (Hf3 & Hh3 & Hi3).
  fold w3 in Hf3, Hh3, Hi3.
  rewrite (step_respond template w3 0 d2 (o_templateUrl obj))
    by (by rewrite Hi3).
  destruct (handleResponse_counts template
              (with_inflight w3 (delete 0 (inflight w3))) d2) as (Hf4 & Hh4 & _).
  rewrite Hf4, Hh4.
  change (log (with_inflight w3 (delete 0 (inflight w3)))) with (log w3).
  rewrite Hf3, Hh3. done.
Qed.

Lemma overlapping_renders_fetch_twice_witness :
  let w4 := run literal_template sample_view [Render; Render; Respond 0 "a"; Respond 0 "b"] in
  fetches (log w4) = 2 ∧ hooks (log w4) = 2.
Proof.
  pose proof (overlapping_renders_fetch_twice literal_template ∅ ""
    (Options (JStr "/static/tpl/intro_step.underscore") None JUndefined JUndefined)
    "a" "b" eq_refl) as (_ & _ & Hf & Hh).
  split; [exact Hf | exact Hh].
Defined.

(** *** The context handed to the template *)

(** C4: when a response arrives, the template is rendered with a context
    that holds every key of the step data with the step data's value, holds
    [nextStepNum] and [nextStepTitle] with the view's own values where the
    step data has no such key, and holds nothing else; the rendering is what
    gets cached and written into the root element. *)
Theorem handleResponse_context
    (template : string → gmap string jsval → string)
    (w : world) (data : string) (sd : gmap string jsval) :
  objects w !! stepData (this w) = Some sd →
  ∃ context : gmap string jsval,
    renderedHtml (this (handleResponse template w data)) = JStr (template data context)
    ∧ el (handleResponse template w data) = template data context
    ∧ (∀ k v, sd !! k = Some v → context !! k = Some v)
    ∧ (sd !! "nextStepNum" = None → context !! "nextStepNum" = Some (nextStepNum (this w)))
    ∧ (sd !! "nextStepTitle" = None → context !! "nextStepTitle" = Some (nextStepTitle (this w)))
    ∧ (∀ k, sd !! k = None → k ≠ "nextStepNum" → k ≠ "nextStepTitle" → context !! k = None).
Proof.
  intros Hsd.
  destruct (handleResponse_store template w data sd Hsd) as [_ Hhtml].
  destruct (handleResponse_this template w data) as (h & Hthis & Hel & _).
  eexists. split; [exact Hhtml|].
  split.
  { rewrite Hel. rewrite Hthis in Hhtml. simpl in Hhtml. congruence. }
  split; [|split; [|split]].
  - intros k v Hk. by apply lookup_union_Some_l.
  - intros Hk. rewrite lookup_union_r by done. by rewrite lookup_insert_eq.
  - intros Hk. rewrite lookup_union_r by done.
    rewrite lookup_insert_ne by done. by rewrite lookup_singleton_eq.
  - intros k Hk H1 H2. rewrite lookup_union_r by done.
    rewrite lookup_insert_ne by done. by rewrite lookup_singleton_ne.
Qed.

Lemma handleResponse_context_witness :
  let sd : gmap string jsval :=
    {[ "nextStepNum" := JNum 9; "courseKey" := JStr "edX/DemoX/Demo" ]} in
  let w := initialize {[ 0 := sd ]} "" (Options (JStr "/tpl") (Some 0) (JNum 2) (JStr "Pay")) in
  ∃ context : gmap string jsval,
    renderedHtml (this (handleResponse literal_template w "x")) = JStr (literal_template "x" context)
    ∧ context !! "nextStepNum" = Some (JNum 9)
    ∧ context !! "courseKey" = Some (JStr "edX/DemoX/Demo")
    ∧ context !! "nextStepTitle" = Some (JStr "Pay").
Proof.
  intros sd w.
  destruct (handleResponse_context literal_template w "x" sd eq_refl)
    as (context & H1 & _ & H3 & _ & H5 & _).
  exists context. split; [exact H1|]. split; [|split].
  - apply H3. reflexivity.
  - apply H3. reflexivity.
  - apply H5. reflexivity.
Defined.

(** *** The hook runs after the content is written *)


(** *** A failed fetch *)

(** C6: when a request in flight fails while nothing is cached, no handler
    runs: the root element keeps its content, the trace gains no event (no
    content write, no hook, no message), the cache stays absent, and the
    request is gone, so nothing will run for it later either. *)
Theorem failed_fetch_changes_nothing
    (template : string → gmap string jsval → string)
    (w : world) (i : nat) (url : jsval) :
  inflight w !! i = Some url →
  renderedHtml (this w) = JUndefined →
  let w' := step template w (FetchFail i) in
  el w' = el w
  ∧ log w' = log w
  ∧ hooks (log w') = hooks (log w)
  ∧ renderedHtml (this w') = JUndefined
  ∧ this w' = this w
  ∧ objects w' = objects w
  ∧ length (inflight w') + 1 = length (inflight w).
Proof.
  intros Hi Hr. simpl. repeat split; try done.
  rewrite length_delete by eauto.
  apply lookup_lt_Some in Hi. lia.
Qed.

Lemma failed_fetch_changes_nothing_witness :
  let w := render sample_view in
  let w' := step literal_template w (FetchFail 0) in
  inflight w = [JStr "/static/tpl/intro_step.underscore"]
  ∧ el w' = "" ∧ log w' = log w ∧ renderedHtml (this w') = JUndefined.
Proof.
  intros w w'. split; [reflexivity|].
  pose proof (failed_fetch_changes_nothing literal_template w 0
                (JStr "/static/tpl/intro_step.underscore") eq_refl eq_refl)
    as (H1 & H2 & _ & H4 & _).
  split; [exact H1|]. split; [exact H2 | exact H4].
Defined.

(** *** The next-step signal *)



(** *** The configuration fields are never written *)

(** C10: whatever sequence of [render] calls, [nextStep] calls, responses
    and failures a view goes through, its [templateUrl], [nextStepNum] and
    [nextStepTitle] are the values computed at construction, [stepData] is
    the same reference, and the object it refers to is the one it referred
    to at construction, unchanged: the merge writes a fresh context object
    only. *)
Theorem configuration_is_never_written
    (template : string → gmap string jsval → string)
    (σ : store) (content : string) (obj : options) (acts : list action) :
  (∀ l, o_stepData obj = Some l → is_Some (σ !! l)) →
  let w0 := initialize σ content obj in
  let w := run template w0 acts in
  templateUrl (this w) = js_or (o_templateUrl obj) (JStr "")
  ∧ nextStepNum (this w) = js_or (o_nextStepNum obj) (JStr "")
  ∧ nextStepTitle (this w) = js_or (o_nextStepTitle obj) (JStr "")
  ∧ stepData (this w) = stepData (this w0)
  ∧ objects w !! stepData (this w) = objects w0 !! stepData (this w0)
  ∧ objects w !! stepData (this w)
    = match o_stepData obj with Some l => σ !! l | None => Some ∅ end.
Proof.
  intros Hwf w0 w.
  destruct (initialize_fields σ content obj) as (Hu & Hn & Ht & _).
  destruct (initialize_step_data σ content obj Hwf) as [Hsd Hsome].
  fold w0 in Hu, Hn, Ht, Hsd, Hsome.
  destruct (run_same_config template acts w0 Hsome) as (A1 & A2 & A3 & A4 & A5).
  fold w in A1, A2, A3, A4, A5.
  rewrite A1, A2, A3, A4, A5, Hu, Hn, Ht, Hsd. done.
Qed.

Lemma configuration_is_never_written_witness :
  let sd : gmap string jsval := {[ "courseKey" := JStr "edX/DemoX/Demo" ]} in
  let obj := Options (JStr "/tpl") (Some 0) (JNum 2) (JStr "Pay") in
  let w := run literal_template (initialize {[ 0 := sd ]} "" obj)
               [Render; Render; Respond 1 "<p>a</p>"; FetchFail 0; Render] in
  templateUrl (this w) = JStr "/tpl"
  ∧ nextStepNum (this w) = JNum 2
  ∧ nextStepTitle (this w) = JStr "Pay"
  ∧ objects w !! stepData (this w) = Some sd.
Proof.
  intros sd obj w.
  assert (Hwf : ∀ l, o_stepData obj = Some l → is_Some (({[ 0 := sd ]} : store) !! l)).
  { intros l Hl. injection Hl as <-. exists sd. reflexivity. }
  pose proof (configuration_is_never_written literal_template {[ 0 := sd ]} "" obj
                [Render; Render; Respond 1 "<p>a</p>"; FetchFail 0; Render] Hwf)
    as (H1 & H2 & H3 & _ & _ & H6).
  split; [exact H1|]. split; [exact H2|]. split; [exact H3 | exact H6].
Defined.

End StepViewFacts.

(** ** The bootstrap *)

Module PayAndVerifyFacts.
Import JS JSFacts PayAndVerify.

(** *** Texts that stay strings *)

Lemma comma_is_text c : Ascii.eqb c comma = true → numeral_char c = false.
Proof. intros Hc. apply Ascii.eqb_eq in Hc. by subst c. Qed.

Lemma comma_is_no_digit c : Ascii.eqb c comma = true → is_digit c = false.
Proof. intros Hc. apply Ascii.eqb_eq in Hc. by subst c. Qed.

Lemma has_comma_text s : has_comma s = true → has_text_char s = true.
Proof.
  induction s as [|c r IH]; [done|]. cbn [has_comma has_text_char].
  intros H. apply orb_true_iff in H as [Hc|Hr].
  - by rewrite (comma_is_text c Hc).
  - rewrite IH by done. by rewrite orb_true_r.
Qed.

Lemma has_comma_digits s acc : has_comma s = true → digits_value s acc = None.
Proof.
  revert acc. induction s as [|c r IH]; intros acc; [done|].
  cbn [has_comma digits_value]. intros H.
  apply orb_true_iff in H as [Hc|Hr].
  - by rewrite (comma_is_no_digit c Hc).
  - destruct (is_digit c); [by apply IH|done].
Qed.

Lemma has_comma_natural s : has_comma s = true → natural_numeral s = None.
Proof.
  intros H. destruct s as [|c r]; [done|]. unfold natural_numeral.
  destruct (code c =? 48)%N eqn:Hc.
  - destruct (String.eqb_spec r "") as [->|]; [|done].
    cbn in H. rewrite orb_false_r in H.
    apply Ascii.eqb_eq in H. subst c. done.
  - by apply has_comma_digits.
Qed.

Lemma has_comma_integer s : has_comma s = true → integer_numeral s = None.
Proof.
  intros H. unfold integer_numeral.
  destruct s as [|c r]; [done|].
  destruct (code c =? 45)%N eqn:Hc.
  - assert (Hr : has_comma r = true).
    { cbn in H. apply orb_true_iff in H as [Hcc|]; [|done].
      apply Ascii.eqb_eq in Hcc. subst c. done. }
    by rewrite (has_comma_natural r Hr).
  - by rewrite (has_comma_natural _ H).
Qed.

(** A text with a comma and without brace or bracket is never
    converted. *)
Lemma comma_list_stays_text s :
  has_comma s = true → has_brace s = false → jq_convert s = Some (JStr s).
Proof.
  intros Hc Hb. unfold jq_convert, is_number_name.
  repeat match goal with
         | |- context [String.eqb s ?t] =>
             destruct (String.eqb_spec s t) as [->|_]; [done|]
         end.
  rewrite (has_comma_integer s Hc), (has_comma_text s Hc), Hb. done.
Qed.

(** *** The options *)

Lemma split_operand (v : jsval) :
  (split_method (js_or v (JStr "")) = None ↔ truthy v = true ∧ ∀ s, v ≠ JStr s)
  ∧ (truthy v = false → split_method (js_or v (JStr "")) = Some [""])
  ∧ (∀ s, v = JStr s → split_method (js_or v (JStr "")) = Some (split s)).
Proof.
  split; [|split].
  - unfold js_or. destruct v as [| |b|n|s]; cbn.
    + split; [done|]. by intros [? _].
    + split; [done|]. by intros [? _].
    + destruct b; cbn; [|split; [done|by intros [? _]]].
      split; [|done]. intros _. split; [done|]. intros s. done.
    + destruct (n =? 0)%Z; cbn; [split; [done|by intros [? _]]|].
      split; [|done]. intros _. split; [done|]. intros s. done.
    + destruct (String.eqb s ""); cbn.
      * split; [done|]. by intros [? _].
      * split; [done|]. intros [_ Hs]. by destruct (Hs s).
  - intros Hf. unfold js_or. by rewrite Hf.
  - intros s ->. unfold js_or. cbn.
    by destruct (String.eqb_spec s "") as [->|Hne].
Qed.

Section ReaderFacts.

Variable other : string → jsval.

Lemma bootstrap_fields el cfg :
  bootstrap other el = Some cfg →
  Forall (λ '(field, attr), field cfg = attribute other el attr) forwarded
  ∧ split_method (js_or (attribute other el prices_attribute) (JStr ""))
    = Some (suggestedPrices (make_payment_step (stepInfo cfg))).
Proof.
  unfold bootstrap, view_options.
  change (data other el "course-mode-suggested-prices")
    with (attribute other el prices_attribute).
  destruct (split_method _) as [prices|]; [|done].
  cbn. intros [= <-]. split; [|done].
  unfold forwarded. repeat constructor.
Qed.

Lemma bootstrap_raises el :
  bootstrap other el = None
  ↔ split_method (js_or (attribute other el prices_attribute) (JStr "")) = None.
Proof.
  unfold bootstrap, view_options.
  change (data other el "course-mode-suggested-prices")
    with (attribute other el prices_attribute).
  by destruct (split_method _).
Qed.

Lemma attribute_converted el attr s v :
  el !! attr = Some s → jq_convert s = Some v → attribute other el attr = v.
Proof. intros Hs Hv. unfold attribute. by rewrite Hs, Hv. Qed.

Lemma attribute_absent el attr :
  el !! attr = None → attribute other el attr = JUndefined.
Proof. intros Hs. unfold attribute. by rewrite Hs. Qed.

(** The suggested prices of a container whose prices attribute is absent
    or holds a text that stays a string. *)
Lemma bootstrap_text_prices el :
  (el !! prices_attribute = None
   ∨ ∃ s, el !! prices_attribute = Some s ∧ jq_convert s = Some (JStr s)) →
  ∃ cfg, bootstrap other el = Some cfg
         ∧ suggestedPrices (make_payment_step (stepInfo cfg))
           = split (default "" (el !! prices_attribute)).
Proof.
  intros Hraw.
  assert (Hsplit : split_method (js_or (attribute other el prices_attribute) (JStr ""))
                   = Some (split (default "" (el !! prices_attribute)))).
  { destruct Hraw as [Habs|(s & Hs & Hconv)].
    - rewrite (attribute_absent el _ Habs), Habs. done.
    - rewrite (attribute_converted el _ s _ Hs Hconv), Hs.
      destruct (split_operand (JStr s)) as (_ & _ & Hstr).
      by apply Hstr. }
  destruct (bootstrap other el) as [cfg|] eqn:Hb.
  - exists cfg. split; [done|].
    destruct (bootstrap_fields el cfg Hb) as [_ Hp].
    rewrite Hsplit in Hp. by injection Hp as <-.
  - apply bootstrap_raises in Hb. by rewrite Hsplit in Hb.
Qed.

End ReaderFacts.




(** C7, on the code: the values under the keys are what [el.data] makes of
    the attribute texts, not the texts: a title "2014" and a minimum price
    "10" arrive as numbers, a text "true" as the boolean.  And an error can
    surface: with the lone price "10" the TypeError is raised and the root
    view is not constructed. *)
Lemma attribute_values_are_converted :
  (∃ cfg, bootstrap plain_text
            {[ "data-intro-title" := "2014";
               "data-course-mode-min-price" := "10";
               "data-requirements" := "true" ]} = Some cfg
          ∧ introTitle (intro_step (stepInfo cfg)) = JNum 2014
          ∧ minPrice (make_payment_step (stepInfo cfg)) = JNum 10
          ∧ requirements (intro_step (stepInfo cfg)) = JBool true)
  ∧ bootstrap plain_text
      {[ "data-intro-title" := "Verify Your Identity";
         prices_attribute := "10" ]} = None.
Proof.
  split; [|reflexivity].
  eexists. split; [reflexivity|]. repeat split.
Qed.

(** C7 (amended): the bootstrap validates nothing.  Each forwarded key
    holds the value [el.data] gives for its attribute: [undefined] when the
    attribute is absent, the text itself when [el.data] leaves it a string,
    its conversion otherwise; [suggestedPrices] holds the comma split of
    the prices value, taken as the empty string when it is falsy.  The
    options are built unless the prices value is truthy and not a string.
    With [data-intro-title] set to "Verify Your Identity" and
    [data-current-step] to "intro-step" the options hold that [introTitle]
    for the intro step and that [currentStep], and they are built when the
    prices attribute is absent. *)
Theorem bootstrap_forwards_attributes
    (other : string → jsval) (el : container) :
  let value := attribute other el in
  (bootstrap other el = None
   ↔ truthy (value prices_attribute) = true ∧ ∀ s, value prices_attribute ≠ JStr s)
  ∧ (∀ cfg, bootstrap other el = Some cfg →
       Forall (λ '(field, attr), field cfg = value attr) forwarded
       ∧ Some (suggestedPrices (make_payment_step (stepInfo cfg)))
         = split_method (js_or (value prices_attribute) (JStr ""))
       ∧ (el !! "data-intro-title" = Some "Verify Your Identity" →
          el !! "data-current-step" = Some "intro-step" →
          introTitle (intro_step (stepInfo cfg)) = JStr "Verify Your Identity"
          ∧ currentStep cfg = JStr "intro-step"))
  ∧ (∀ attr, el !! attr = None → value attr = JUndefined)
  ∧ (∀ attr s, el !! attr = Some s → jq_convert s = Some (JStr s) →
       value attr = JStr s)
  ∧ (∀ attr s v, el !! attr = Some s → jq_convert s = Some v → value attr = v)
  ∧ (el !! prices_attribute = None → ∃ cfg, bootstrap other el = Some cfg).
Proof.
  intros value. subst value.
  split; [|split; [|split; [|split; [|split]]]].
  - rewrite bootstrap_raises. apply split_operand.
  - intros cfg Hcfg.
    destruct (bootstrap_fields other el cfg Hcfg) as [Hf Hp].
    split; [exact Hf|]. split; [by rewrite Hp|].
    intros Ht Hc.
    unfold forwarded in Hf.
    apply Forall_cons in Hf as [_ Hf].
    apply Forall_cons in Hf as [Hcur Hf].
    apply Forall_cons in Hf as [Htitle _].
    cbn in Hcur, Htitle. rewrite Htitle, Hcur.
    split.
    + by apply (attribute_converted other el _ "Verify Your Identity").
    + by apply (attribute_converted other el _ "intro-step").
  - intros attr. apply attribute_absent.
  - intros attr s. apply attribute_converted.
  - intros attr s v. apply attribute_converted.
  - intros Habs.
    destruct (bootstrap_text_prices other el (or_introl Habs)) as (cfg & Hcfg & _).
    eauto.
Qed.

End PayAndVerifyFacts.

(** ** The step view: whole render cycles and the store *)

Module StepViewCycles.
Import JS StepView StepViewFacts.

Section Cycles.

Variable template : string → gmap string jsval → string.

Lemma handleResponse_rendering w data sd :
  objects w !! stepData (this w) = Some sd →
  let html := template data
    (sd ∪ {[ "nextStepNum" := nextStepNum (this w);
             "nextStepTitle" := nextStepTitle (this w) ]}) in
  el (handleResponse template w data) = html
  ∧ renderedHtml (this (handleResponse template w data)) = JStr html
  ∧ log (handleResponse template w data)
    = log w ++ [EvHtml (JStr html); EvPostRender html].
Proof.
  intros Hsd html. subst html.
  destruct (handleResponse_store template w data sd Hsd) as [_ Hhtml].
  destruct (handleResponse_this template w data) as (h & Hthis & Hel & Hlog).
  rewrite Hel, Hlog, Hhtml.
  rewrite Hthis in Hhtml. simpl in Hhtml. injection Hhtml as ->.
  done.
Qed.

(** The objects of the store that exist are not written by
    [handleResponse]: only the fresh context object is. *)
Lemma handleResponse_objects_frame w data l o :
  objects w !! l = Some o →
  objects (handleResponse template w data) !! l = Some o.
Proof.
  intros Hl.
  assert (Hne : fresh (dom (objects w)) ≠ l) by (apply fresh_ref_ne; eauto).
  unfold handleResponse, new_context. cbn.
  unfold extend.
  destruct (_ !! fresh _); [|by rewrite lookup_insert_ne].
  destruct (_ !! stepData _); by rewrite ?lookup_insert_ne.
Qed.

Lemma step_objects_frame w a l o :
  objects w !! l = Some o → objects (step template w a) !! l = Some o.
Proof.
  intros Hl. destruct a as [| |i data|i]; simpl; try done.
  - unfold render. by destruct (negb _ && _).
  - destruct (inflight w !! i); [|done].
    by apply handleResponse_objects_frame.
Qed.

Lemma run_objects_frame acts w l o :
  objects w !! l = Some o → objects (run template w acts) !! l = Some o.
Proof.
  revert w. induction acts as [|a acts IH]; intros w Hl; [done|].
  apply IH. by apply step_objects_frame.
Qed.

End Cycles.

(** X1: the first render cycle.  For a view with a truthy template locator
    whose step data is the object [sd] (the empty object when none was
    given), [render] followed by the arrival of the response [data] issues
    one fetch of the locator, leaves nothing in flight, and caches, writes
    and shows to the hook the rendering of [data] in the context made of
    [sd] laid over the two next-step fields as defaulted by [initialize]. *)
Theorem first_render_cycle
    (template : string → gmap string jsval → string)
    (σ : store) (content : string) (obj : options) (data : string)
    (sd : gmap string jsval) :
  truthy (o_templateUrl obj) = true →
  match o_stepData obj with Some l => σ !! l | None => Some ∅ end = Some sd →
  let w := run template (initialize σ content obj) [Render; Respond 0 data] in
  let html := template data
    (sd ∪ {[ "nextStepNum" := js_or (o_nextStepNum obj) (JStr "");
             "nextStepTitle" := js_or (o_nextStepTitle obj) (JStr "") ]}) in
  el w = html
  ∧ renderedHtml (this w) = JStr html
  ∧ inflight w = []
  ∧ log w = [EvAjax (o_templateUrl obj); EvHtml (JStr html); EvPostRender html].
Proof.
  intros Ht Hsd w html.
  set (w0 := initialize σ content obj) in *.
  assert (Hwf : ∀ l, o_stepData obj = Some l → is_Some (σ !! l)).
  { intros l Hl. rewrite Hl in Hsd. eauto. }
  destruct (initialize_fields σ content obj)
    as (Hu & Hn & Hti & Hr & _ & _ & Hfl & Hlg).
  destruct (initialize_step_data σ content obj Hwf) as [Hobj _].
  fold w0 in Hu, Hn, Hti, Hr, Hfl, Hlg, Hobj.
  rewrite Hsd in Hobj.
  assert (Hurl : templateUrl (this w0) = o_templateUrl obj).
  { rewrite Hu. unfold js_or. by rewrite Ht. }
  assert (Hw1 : render w0 = ajax_get w0 (o_templateUrl obj)).
  { rewrite render_fetch by (by rewrite ?Hr, ?Hurl). by rewrite Hurl. }
  subst w.
  change (run template w0 [Render; Respond 0 data])
    with (step template (render w0) (Respond 0 data)).
  rewrite Hw1.
  rewrite (step_respond template _ 0 data (o_templateUrl obj))
    by (cbn; by rewrite Hfl).
  set (w1 := with_inflight _ _).
  destruct (handleResponse_rendering template w1 data sd Hobj) as (He & Hc & Hl).
  destruct (handleResponse_frame template w1 data) as [_ Hi].
  assert (Hbase : ({[ "nextStepNum" := nextStepNum (this w1);
                      "nextStepTitle" := nextStepTitle (this w1) ]} : gmap string jsval)
                  = {[ "nextStepNum" := js_or (o_nextStepNum obj) (JStr "");
                       "nextStepTitle" := js_or (o_nextStepTitle obj) (JStr "") ]}).
  { change (this w1) with (this w0). by rewrite Hn, Hti. }
  rewrite Hbase in He, Hc, Hl. fold html in He, Hc, Hl.
  rewrite He, Hc, Hi, Hl.
  repeat split; try done.
  - cbn. by rewrite Hfl.
  - cbn. by rewrite Hlg.
Qed.

Lemma first_render_cycle_witness :
  let obj := Options (JStr "/tpl") None (JNum 0) (JStr "Pay") in
  let w := run literal_template (initialize ∅ "<p>old</p>" obj)
               [Render; Respond 0 "<h1>Intro</h1>"] in
  el w = "<h1>Intro</h1>" ∧ renderedHtml (this w) = JStr "<h1>Intro</h1>"
  ∧ inflight w = [].
Proof.
  intros obj w.
  pose proof (first_render_cycle literal_template ∅ "<p>old</p>" obj
                "<h1>Intro</h1>" ∅ eq_refl eq_refl) as (H1 & H2 & H3 & _).
  split; [exact H1|]. split; [exact H2 | exact H3].
Defined.

(** X2: [handleResponse] has no guard on the cache.  When two responses are
    handled one after the other, the second rendering replaces the first in
    the cache and in the root element; both are rendered in the same
    context, and the hook runs for each. *)
Theorem later_response_overwrites
    (template : string → gmap string jsval → string)
    (w : world) (d1 d2 : string) (sd : gmap string jsval) :
  objects w !! stepData (this w) = Some sd →
  let context : gmap string jsval :=
    sd ∪ {[ "nextStepNum" := nextStepNum (this w);
            "nextStepTitle" := nextStepTitle (this w) ]} in
  let w1 := handleResponse template w d1 in
  let w2 := handleResponse template w1 d2 in
  renderedHtml (this w1) = JStr (template d1 context)
  ∧ renderedHtml (this w2) = JStr (template d2 context)
  ∧ el w2 = template d2 context
  ∧ log w2 = log w ++ [EvHtml (JStr (template d1 context)); EvPostRender (template d1 context);
                       EvHtml (JStr (template d2 context)); EvPostRender (template d2 context)].
Proof.
  intros Hsd context w1 w2.
  destruct (handleResponse_rendering template w d1 sd Hsd) as (_ & Hc1 & Hl1).
  fold w1 in Hc1, Hl1. fold context in Hc1, Hl1.
  destruct (handleResponse_this template w d1) as (h & Hthis & _ & _).
  fold w1 in Hthis.
  assert (Hsd1 : objects w1 !! stepData (this w1) = Some sd).
  { rewrite Hthis. cbn. by apply (handleResponse_objects_frame template w d1). }
  destruct (handleResponse_rendering template w1 d2 sd Hsd1) as (He2 & Hc2 & Hl2).
  fold w2 in He2, Hc2, Hl2.
  assert (Hbase : ({[ "nextStepNum" := nextStepNum (this w1);
                      "nextStepTitle" := nextStepTitle (this w1) ]} : gmap string jsval)
                  = {[ "nextStepNum" := nextStepNum (this w);
                       "nextStepTitle" := nextStepTitle (this w) ]}).
  { by rewrite Hthis. }
  rewrite Hbase in He2, Hc2, Hl2. fold context in He2, Hc2, Hl2.
  rewrite Hc1, Hc2, He2, Hl2, Hl1, <- app_assoc. done.
Qed.

Lemma later_response_overwrites_witness :
  let w := ajax_get (ajax_get sample_view (JStr "/t")) (JStr "/t") in
  let w2 := handleResponse literal_template (handleResponse literal_template w "first") "second" in
  renderedHtml (this w2) = JStr "second" ∧ el w2 = "second".
Proof.
  intros w w2.
  pose proof (later_response_overwrites literal_template w "first" "second" ∅ eq_refl)
    as (_ & H2 & H3 & _).
  split; [exact H2 | exact H3].
Defined.

(** X7: a failed fetch is not remembered.  With nothing truthy cached and a
    truthy locator, the [render] that follows the failure of a request
    issues a new fetch of the locator: again as many requests are in flight
    as before the failure, no content is written and the hook does not
    run. *)
Theorem failed_fetch_is_retried
    (template : string → gmap string jsval → string)
    (w : world) (i : nat) (url : jsval) :
  inflight w !! i = Some url →
  truthy (renderedHtml (this w)) = false →
  truthy (templateUrl (this w)) = true →
  let w' := run template w [FetchFail i; Render] in
  log w' = log w ++ [EvAjax (templateUrl (this w))]
  ∧ inflight w' = delete i (inflight w) ++ [templateUrl (this w)]
  ∧ length (inflight w') = length (inflight w)
  ∧ el w' = el w
  ∧ this w' = this w.
Proof.
  intros Hi Hr Ht w'. subst w'. unfold run. cbn [foldl step].
  rewrite render_fetch by done.
  cbn. repeat split; try done.
  rewrite length_app, length_delete by eauto.
  apply lookup_lt_Some in Hi. cbn. lia.
Qed.

Lemma failed_fetch_is_retried_witness :
  let w := render sample_view in
  let w' := run literal_template w [FetchFail 0; Render] in
  fetches (log w') = 2 ∧ length (inflight w') = 1.
Proof.
  intros w w'.
  pose proof (failed_fetch_is_retried literal_template w 0
                (JStr "/static/tpl/intro_step.underscore") eq_refl eq_refl eq_refl)
    as (H1 & _ & H3 & _).
  split; [| exact H3].
  unfold w'. rewrite H1. reflexivity.
Defined.

(** X8: once a view is constructed, whatever it goes through, every
    object of the store is still there with the same properties: [render],
    [handleResponse] and [nextStep] write no object but the context
    objects that [handleResponse] allocates. *)
Theorem existing_objects_are_untouched
    (template : string → gmap string jsval → string)
    (w : world) (acts : list action) (l : nat) (o : gmap string jsval) :
  objects w !! l = Some o →
  objects (run template w acts) !! l = Some o.
Proof. apply run_objects_frame. Qed.

Lemma existing_objects_are_untouched_witness :
  let o : gmap string jsval := {[ "courseKey" := JStr "edX/DemoX/Demo" ]} in
  let w := initialize {[ 3 := o ]} ""
             (Options (JStr "/tpl") (Some 3) JUndefined JUndefined) in
  objects (run literal_template w [Render; Respond 0 "a"; Render; NextStep]) !! 3
  = Some o.
Proof.
  intros o w.
  exact (existing_objects_are_untouched literal_template w
           [Render; Respond 0 "a"; Render; NextStep] 3 o eq_refl).
Defined.

(** X9: a view constructed without step data gets an empty object of its
    own: the reference was not allocated before, it is not handed out again
    to a view constructed later on the resulting store, and no response
    handled by the view puts anything in that object. *)
Theorem default_stepData_is_private
    (template : string → gmap string jsval → string)
    (σ : store) (content content' : string) (obj obj' : options)
    (acts : list action) :
  o_stepData obj = None →
  o_stepData obj' = None →
  let w := initialize σ content obj in
  let w' := run template w acts in
  σ !! stepData (this w) = None
  ∧ objects w' !! stepData (this w) = Some ∅
  ∧ stepData (this (initialize (objects w') content' obj')) ≠ stepData (this w).
Proof.
  intros Ho Ho' w w'.
  assert (Hsd : stepData (this w) = fresh (dom σ)).
  { unfold w, initialize. by rewrite Ho. }
  assert (Hobj : objects w !! stepData (this w) = Some ∅).
  { unfold w, initialize. rewrite Ho. cbn. by rewrite lookup_insert_eq. }
  assert (Hobj' : objects w' !! stepData (this w) = Some ∅)
    by (by apply run_objects_frame).
  split; [rewrite Hsd; apply fresh_ref_unallocated|].
  split; [done|].
  unfold initialize at 1. rewrite Ho'. cbn.
  apply fresh_ref_ne. eauto.
Qed.

Lemma default_stepData_is_private_witness :
  let obj := Options (JStr "/tpl") None JUndefined JUndefined in
  let w := initialize ∅ "" obj in
  let w' := run literal_template w [Render; Respond 0 "a"] in
  objects w' !! stepData (this w) = Some ∅
  ∧ stepData (this (initialize (objects w') "" obj)) ≠ stepData (this w).
Proof.
  intros obj w w'.
  pose proof (default_stepData_is_private literal_template ∅ "" "" obj obj
                [Render; Respond 0 "a"] eq_refl eq_refl) as (_ & H2 & H3).
  split; [exact H2 | exact H3].
Defined.

End StepViewCycles.

(** ** The step view: invariants of the event loop *)

Module StepViewInvariants.
Import JS StepView StepViewFacts.

Section Invariants.

Variable template : string → gmap string jsval → string.

Lemma fetches_signals name cbs :
  fetches (map (λ cb, EvSignal cb name []) cbs) = 0.
Proof. induction cbs; done. Qed.

Lemma counts_of_write v :
  fetches [EvHtml v] = 0 ∧ hooks [EvHtml v] = 0.
Proof. done. Qed.

Lemma counts_of_hook c :
  fetches [EvPostRender c] = 0 ∧ hooks [EvPostRender c] = 1.
Proof. done. Qed.

Lemma fetch_of_signals url name cbs :
  Forall (fetch_of url) (map (λ cb, EvSignal cb name []) cbs).
Proof. induction cbs; by constructor. Qed.

Lemma length_delete_le (l : list jsval) (i : nat) :
  (length (delete i l) ≤ length l)%nat.
Proof. apply sublist_length, sublist_delete. Qed.

(** Requests: all for the locator of the view, none without a fetch. *)
Lemma step_requests url w a :
  templateUrl (this w) = url
  ∧ Forall (λ u, u = url) (inflight w)
  ∧ Forall (fetch_of url) (log w)
  ∧ (length (inflight w) ≤ fetches (log w))%nat →
  templateUrl (this (step template w a)) = url
  ∧ Forall (λ u, u = url) (inflight (step template w a))
  ∧ Forall (fetch_of url) (log (step template w a))
  ∧ (length (inflight (step template w a)) ≤ fetches (log (step template w a)))%nat.
Proof.
  intros (Hu & Hfl & Hlg & Hlen).
  pose proof (length_delete_le (inflight w)) as Hdel.
  assert (Happ : ∀ es, Forall (fetch_of url) es →
                       Forall (fetch_of url) (log w ++ es)).
  { intros es Hes. by apply Forall_app. }
  destruct a as [| |i data|i]; cbn [step].
  - unfold render. destruct (negb _ && _).
    + cbn -[fetches hooks]. rewrite fetches_app.
      split; [done|]. split; [|split].
      * apply Forall_app; split; [done|]. by repeat constructor.
      * apply Happ. by repeat constructor.
      * change (fetches [EvAjax (templateUrl (this w))]) with 1.
        rewrite length_app in *. cbn [length]. lia.
    + cbn -[fetches hooks]. rewrite <- app_assoc, fetches_app.
      split; [done|]. split; [done|]. split.
      * apply Happ. by repeat constructor.
      * change (fetches [EvHtml (renderedHtml (this w));
                         EvPostRender (html_content (renderedHtml (this w)) (el w))]) with 0.
        lia.
  - cbn -[fetches hooks]. rewrite fetches_app, fetches_signals.
    split; [done|]. split; [done|]. split.
    + apply Happ. apply fetch_of_signals.
    + lia.
  - destruct (inflight w !! i); [|done].
    destruct (handleResponse_this template (with_inflight w (delete i (inflight w))) data)
      as (h & -> & _ & ->).
    destruct (handleResponse_frame template (with_inflight w (delete i (inflight w))) data)
      as [_ ->].
    cbn -[fetches hooks]. rewrite fetches_app.
    split; [done|]. split; [by apply Forall_delete|]. split.
    + apply Happ. by repeat constructor.
    + specialize (Hdel i).
      change (fetches [EvHtml (JStr h); EvPostRender h]) with 0. lia.
  - cbn -[fetches hooks].
    split; [done|]. split; [by apply Forall_delete|]. split; [done|].
    specialize (Hdel i). lia.
Qed.

(** Writes and the hook. *)
Lemma write_then_hook_nil : write_then_hook [].
Proof. intros j v H. by rewrite lookup_nil in H. Qed.

Lemma write_then_hook_quiet l es :
  write_then_hook l → (∀ v, EvHtml v ∉ es) → write_then_hook (l ++ es).
Proof.
  intros Hl Hes j v Hj.
  apply lookup_app_Some in Hj as [Hj|[_ Hj]].
  - destruct (Hl j v Hj) as (c & Hc & Hs).
    exists c. split; [by apply lookup_app_l_Some | done].
  - exfalso. apply list_elem_of_lookup_2 in Hj. by apply (Hes v).
Qed.

Lemma write_then_hook_pair l v old :
  write_then_hook l →
  write_then_hook (l ++ [EvHtml v; EvPostRender (html_content v old)]).
Proof.
  intros Hl j v' Hj.
  apply lookup_app_Some in Hj as [Hj|[Hge Hj]].
  - destruct (Hl j v' Hj) as (c & Hc & Hs).
    exists c. split; [by apply lookup_app_l_Some | done].
  - destruct (j - length l) as [|[|k]] eqn:Hk; simpl in Hj; try done.
    inversion Hj; subst v'.
    exists (html_content v old). split.
    + rewrite lookup_app_r by lia.
      replace (S j - length l) with 1 by lia. done.
    + by intros s ->.
Qed.

Lemma step_write_then_hook w a :
  write_then_hook (log w) → write_then_hook (log (step template w a)).
Proof.
  intros Hl. destruct a as [| |i data|i]; cbn [step].
  - unfold render. destruct (negb _ && _); cbn -[fetches hooks].
    + apply write_then_hook_quiet; [done|].
      intros v Hv. apply list_elem_of_singleton in Hv. done.
    + rewrite <- app_assoc. by apply write_then_hook_pair.
  - cbn -[fetches hooks]. apply write_then_hook_quiet; [done|].
    intros v Hv. apply list_elem_of_fmap in Hv as (cb & Hcb & _). done.
  - destruct (inflight w !! i); [|done].
    destruct (handleResponse_this template (with_inflight w (delete i (inflight w))) data)
      as (h & _ & _ & ->).
    by apply (write_then_hook_pair _ (JStr h) h).
  - done.
Qed.

(** The cache and the root element. *)
Lemma step_cache_shown w a :
  renderedHtml (this w) = JUndefined ∨ renderedHtml (this w) = JStr (el w) →
  renderedHtml (this (step template w a)) = JUndefined
  ∨ renderedHtml (this (step template w a)) = JStr (el (step template w a)).
Proof.
  intros Hc. destruct a as [| |i data|i]; cbn [step]; try done.
  - unfold render. destruct (negb _ && _); cbn -[fetches hooks]; [done|].
    destruct Hc as [Hc|Hc]; rewrite Hc; cbn -[fetches hooks]; [by left | by right].
  - destruct (inflight w !! i); [|done].
    destruct (handleResponse_this template (with_inflight w (delete i (inflight w))) data)
      as (h & -> & -> & _).
    by right.
Qed.

(** A view without a locator. *)
Lemma step_no_locator w a :
  truthy (templateUrl (this w)) = false
  ∧ renderedHtml (this w) = JUndefined
  ∧ inflight w = []
  ∧ fetches (log w) = 0 →
  truthy (templateUrl (this (step template w a))) = false
  ∧ renderedHtml (this (step template w a)) = JUndefined
  ∧ inflight (step template w a) = []
  ∧ fetches (log (step template w a)) = 0
  ∧ hooks (log (step template w a))
    = hooks (log w) + (if is_render a then 1 else 0).
Proof.
  intros (Hu & Hc & Hfl & Hf).
  destruct a as [| |i data|i]; cbn [step is_render].
  - rewrite render_cached by (by right).
    cbn -[fetches hooks]. rewrite Hc, !fetches_app, !hooks_app, Hf. cbn -[fetches hooks].
    destruct (counts_of_write JUndefined) as [-> ->].
    destruct (counts_of_hook (el w)) as [-> ->].
    repeat split; try done; lia.
  - cbn -[fetches hooks]. rewrite fetches_app, fetches_signals, hooks_app, hooks_signals.
    repeat split; try done; lia.
  - rewrite Hfl. cbn -[fetches hooks]. repeat split; try done; lia.
  - cbn -[fetches hooks]. rewrite Hfl. cbn -[fetches hooks]. repeat split; try done; lia.
Qed.

End Invariants.

(** X3: in every state a view can reach, each request in flight is for the
    view's template locator, each fetch ever issued was a fetch of that
    locator, and there are never more requests in flight than fetches
    issued. *)
Theorem requests_are_for_the_locator
    (template : string → gmap string jsval → string)
    (σ : store) (content : string) (obj : options) (acts : list action) :
  let w := run template (initialize σ content obj) acts in
  let url := js_or (o_templateUrl obj) (JStr "") in
  templateUrl (this w) = url
  ∧ Forall (λ u, u = url) (inflight w)
  ∧ Forall (fetch_of url) (log w)
  ∧ (length (inflight w) ≤ fetches (log w))%nat.
Proof.
  intros w url. subst w.
  induction acts as [|a acts IH] using rev_ind.
  - destruct (initialize_fields σ content obj)
      as (Hu & _ & _ & _ & _ & _ & Hfl & Hlg).
    cbn. rewrite Hu, Hfl, Hlg. repeat split; try done; by constructor.
  - rewrite run_snoc. by apply step_requests.
Qed.

(** X4: in the trace of every sequence of actions on a new view, each call
    of [.html] on the root element is directly followed by a call of the
    hook, and when a string was written the hook sees exactly that string:
    content never changes without the hook running on it. *)
Theorem every_write_runs_the_hook
    (template : string → gmap string jsval → string)
    (σ : store) (content : string) (obj : options) (acts : list action) :
  write_then_hook (log (run template (initialize σ content obj) acts)).
Proof.
  induction acts as [|a acts IH] using rev_ind.
  - destruct (initialize_fields σ content obj)
      as (_ & _ & _ & _ & _ & _ & _ & Hlg).
    cbn. rewrite Hlg. apply write_then_hook_nil.
  - rewrite run_snoc. by apply step_write_then_hook.
Qed.

(** X5: in every state a view can reach, the cache is either absent or a
    string, and when it is a string the root element holds exactly that
    string. *)
Theorem cached_html_is_shown
    (template : string → gmap string jsval → string)
    (σ : store) (content : string) (obj : options) (acts : list action) :
  let w := run template (initialize σ content obj) acts in
  renderedHtml (this w) = JUndefined ∨ renderedHtml (this w) = JStr (el w).
Proof.
  intros w. subst w.
  induction acts as [|a acts IH] using rev_ind.
  - left. by destruct (initialize_fields σ content obj) as (_ & _ & _ & Hr & _).
  - rewrite run_snoc. by apply step_cache_shown.
Qed.

(** X6: a view constructed with a falsy template locator never issues a
    fetch, never has a request in flight and never caches anything,
    whatever it goes through; the hook has run exactly once for each call
    of [render]. *)
Theorem no_locator_no_fetch
    (template : string → gmap string jsval → string)
    (σ : store) (content : string) (obj : options) (acts : list action) :
  truthy (o_templateUrl obj) = false →
  let w := run template (initialize σ content obj) acts in
  fetches (log w) = 0
  ∧ inflight w = []
  ∧ renderedHtml (this w) = JUndefined
  ∧ hooks (log w) = renders acts.
Proof.
  intros Ht w. subst w.
  assert (Hall : let w := run template (initialize σ content obj) acts in
                 (truthy (templateUrl (this w)) = false
                  ∧ renderedHtml (this w) = JUndefined
                  ∧ inflight w = []
                  ∧ fetches (log w) = 0)
                 ∧ hooks (log w) = renders acts).
  { induction acts as [|a acts IH] using rev_ind.
    - destruct (initialize_fields σ content obj)
        as (Hu & _ & _ & Hr & _ & _ & Hfl & Hlg).
      cbn. rewrite Hu, Hr, Hfl, Hlg. unfold js_or. rewrite Ht.
      repeat split; try done.
    - cbn zeta in IH. destruct IH as (Hinv & Hh).
      cbn zeta. rewrite run_snoc.
      destruct (step_no_locator template _ a Hinv) as (H1 & H2 & H3 & H4 & H5).
      split; [done|].
      unfold renders in *. rewrite filter_app, length_app, H5, Hh.
      assert (Hone : length (filter (λ a0, is_render a0) [a])
                     = if is_render a then 1 else 0) by (by destruct a).
      by rewrite Hone. }
  cbn zeta in Hall. destruct Hall as ((_ & H2 & H3 & H4) & H5).
  done.
Qed.

Lemma no_locator_no_fetch_witness :
  let w := run literal_template
             (initialize ∅ "<p>old</p>" (Options (JNum 0) None JUndefined JUndefined))
             [Render; NextStep; Render; FetchFail 0] in
  fetches (log w) = 0 ∧ hooks (log w) = 2 ∧ renderedHtml (this w) = JUndefined.
Proof.
  intros w.
  pose proof (no_locator_no_fetch literal_template ∅ "<p>old</p>"
                (Options (JNum 0) None JUndefined JUndefined)
                [Render; NextStep; Render; FetchFail 0] eq_refl)
    as (H1 & _ & H3 & H4).
  split; [exact H1|]. split; [exact H4 | exact H3].
Defined.

End StepViewInvariants.

(** ** The bootstrap: the price list and the attributes read *)

Module PayAndVerifyPrices.
Import JS JSFacts PayAndVerify PayAndVerifyFacts.

Lemma length_split s : length (split s) = S (commas s).
Proof.
  induction s as [|c r IH]; [done|].
  pose proof (split_nonempty r) as Hne.
  cbn [split commas].
  destruct (Ascii.eqb c comma).
  - cbn. by rewrite IH.
  - destruct (split r) as [|h t]; [done|]. cbn in *. lia.
Qed.

Lemma split_comma_free_prefix p r :
  has_comma p = false →
  split (String.append p (String comma r)) = p :: split r.
Proof.
  induction p as [|c p IH]; intros Hp.
  - done.
  - cbn [has_comma] in Hp. apply orb_false_iff in Hp as [Hc Hp].
    change (split (String.append (String c p) (String comma r)))
      with (if Ascii.eqb c comma
            then "" :: split (String.append p (String comma r))
            else match split (String.append p (String comma r)) with
                 | [] => [String c ""]
                 | h :: t => String c h :: t
                 end).
    by rewrite Hc, IH.
Qed.

Lemma split_comma_free_whole p : has_comma p = false → split p = [p].
Proof.
  induction p as [|c p IH]; intros Hp; [done|].
  cbn [has_comma] in Hp. apply orb_false_iff in Hp as [Hc Hp].
  change (split (String c p))
    with (if Ascii.eqb c comma then "" :: split p
          else match split p with
               | [] => [String c ""]
               | h :: t => String c h :: t
               end).
  by rewrite Hc, IH.
Qed.

Lemma split_join parts :
  parts ≠ [] → Forall (λ p, has_comma p = false) parts →
  split (join parts) = parts.
Proof.
  induction parts as [|p rest IH]; intros Hne Hfree; [done|].
  apply Forall_cons in Hfree as [Hp Hrest].
  destruct rest as [|q rest].
  - by apply split_comma_free_whole.
  - change (join (p :: q :: rest))
      with (String.append p (String comma (join (q :: rest)))).
    rewrite split_comma_free_prefix by done.
    by rewrite IH.
Qed.

(** X10: what the bootstrap makes of the value read for the suggested
    prices.  Building the options fails exactly when the value is truthy and
    not a string (a number other than zero, [true]): [.split] is then called
    on a value that has no such method.  Every falsy value ([undefined],
    [null], [false], [0], the empty string) gives the one-element list
    [""], and a string gives its comma split. *)
Theorem view_options_prices (get : string → jsval) :
  let v := get "course-mode-suggested-prices" in
  (view_options get = None ↔ truthy v = true ∧ ∀ s, v ≠ JStr s)
  ∧ (truthy v = false →
     ∃ cfg, view_options get = Some cfg
            ∧ suggestedPrices (make_payment_step (stepInfo cfg)) = [""])
  ∧ (∀ s, v = JStr s →
     ∃ cfg, view_options get = Some cfg
            ∧ suggestedPrices (make_payment_step (stepInfo cfg)) = split s).
Proof.
  intros v. unfold view_options. fold v.
  split; [|split].
  - unfold js_or. destruct v as [| |b|n|s] eqn:Hv; cbn.
    + split; [done|]. by intros [? _].
    + split; [done|]. by intros [? _].
    + destruct b; cbn; [|split; [done|by intros [? _]]].
      split; [|done]. intros _. split; [done|]. intros s. done.
    + destruct (n =? 0)%Z; cbn; [split; [done|by intros [? _]]|].
      split; [|done]. intros _. split; [done|]. intros s. done.
    + destruct (String.eqb s ""); cbn.
      * split; [done|]. by intros [? _].
      * split; [done|]. intros [_ Hs]. by destruct (Hs s).
  - intros Hf. unfold js_or. rewrite Hf. cbn. eauto.
  - intros s Hs. rewrite Hs. unfold js_or. cbn.
    destruct (String.eqb_spec s "") as [->|Hne]; cbn; eauto.
Qed.

(** X11: whenever the options are built, the list of suggested prices is
    not empty; when the prices attribute is absent or holds a text that
    [el.data] yields as the string it is, the list has one element more
    than that text has commas (one element when the attribute is
    absent). *)
Theorem suggestedPrices_count (other : string → jsval) (el : container) :
  (∀ cfg, bootstrap other el = Some cfg →
     suggestedPrices (make_payment_step (stepInfo cfg)) ≠ [])
  ∧ ((el !! prices_attribute = None
      ∨ ∃ s, el !! prices_attribute = Some s ∧ jq_convert s = Some (JStr s)) →
     ∃ cfg, bootstrap other el = Some cfg
            ∧ length (suggestedPrices (make_payment_step (stepInfo cfg)))
              = S (commas (default "" (el !! prices_attribute)))).
Proof.
  split.
  - intros cfg Hcfg.
    destruct (bootstrap_fields other el cfg Hcfg) as [_ Hp].
    destruct (js_or (attribute other el prices_attribute) (JStr ""))
      as [| |b|n|s]; try done.
    cbn in Hp. injection Hp as <-. apply split_nonempty.
  - intros Hraw.
    destruct (bootstrap_text_prices other el Hraw) as (cfg & Hcfg & Hp).
    exists cfg. split; [done|]. rewrite Hp. apply length_split.
Qed.

(** X12: the attribute carries any non-empty list of comma-free strings
    faithfully, provided [el.data] yields their comma join as the string it
    is: the suggested prices are then that list, element by element, empty
    elements included. *)
Theorem suggestedPrices_roundtrip
    (other : string → jsval) (el : container) (parts : list string) :
  parts ≠ [] →
  Forall (λ p, has_comma p = false) parts →
  el !! prices_attribute = Some (join parts) →
  jq_convert (join parts) = Some (JStr (join parts)) →
  ∃ cfg,
    bootstrap other el = Some cfg
    ∧ suggestedPrices (make_payment_step (stepInfo cfg)) = parts.
Proof.
  intros Hne Hfree Hel Hconv.
  destruct (bootstrap_text_prices other el) as (cfg & Hcfg & Hp).
  { right. eauto. }
  exists cfg. split; [done|].
  rewrite Hp, Hel. cbn. by apply split_join.
Qed.

Lemma suggestedPrices_roundtrip_witness :
  ∃ cfg,
    bootstrap plain_text {[ prices_attribute := "10,,50," ]} = Some cfg
    ∧ suggestedPrices (make_payment_step (stepInfo cfg)) = ["10"; ""; "50"; ""].
Proof.
  apply (suggestedPrices_roundtrip plain_text {[ prices_attribute := "10,,50," ]}
           ["10"; ""; "50"; ""]).
  - discriminate.
  - repeat constructor.
  - reflexivity.
  - reflexivity.
Defined.

(** X13: the options depend on the attributes the bootstrap reads and on
    nothing else: two containers that agree on those attributes give the
    same options. *)
Theorem bootstrap_reads_only
    (other : string → jsval) (el el' : container) :
  (∀ a, a ∈ attributes_read → el !! a = el' !! a) →
  bootstrap other el = bootstrap other el'.
Proof.
  intros H.
  assert (Hd : ∀ name, String.append "data-" name ∈ attributes_read →
                       data other el name = data other el' name).
  { intros name Hin. unfold data, attribute. by rewrite (H _ Hin). }
  unfold bootstrap, view_options.
  rewrite !Hd by (vm_compute; repeat constructor).
  done.
Qed.

Lemma bootstrap_reads_only_witness :
  bootstrap plain_text {[ "data-intro-title" := "Verify Your Identity" ]}
  = bootstrap plain_text
      (<[ "data-unrelated" := "x" ]> {[ "data-intro-title" := "Verify Your Identity" ]}).
Proof.
  apply bootstrap_reads_only.
  intros a Ha.
  unfold attributes_read, forwarded in Ha. cbn in Ha.
  repeat (apply elem_of_cons in Ha as [->|Ha]; [reflexivity|]).
  by apply elem_of_nil in Ha.
Defined.

End PayAndVerifyPrices.
